(** * swiss_public_transport: the refresh coordinator and its sensor views

    A shallow embedding of
    [homeassistant/components/swiss_public_transport/coordinator.py] and
    [homeassistant/components/swiss_public_transport/sensor.py].

    Python objects are modelled as follows.
    - A timezone-aware [datetime] is the instant it denotes, in microseconds
      since the epoch; a [timedelta] is a signed number of microseconds.
      [dt_util.as_local] changes the zone of a datetime and not its instant,
      and subtracting aware datetimes only looks at instants.
    - The entries of the upstream list and of the published list may be
      [None]; both are lists of options.
    - A [DataConnection] is a [TypedDict], that is a plain dict at run time;
      its values are Python values ([pyval]).
    - The coordinator, the upstream client, the wall clock and the logger
      are the components of a [World] threaded through a state and
      exception monad. *)

From Stdlib Require Import ZArith.
From stdpp Require Import base tactics option list strings pretty gmap.

Local Open Scope Z_scope.
Local Open Scope string_scope.

(** ** Python values *)

Definition datetime := Z.
Definition timedelta := Z.

Inductive pyval :=
  | PyNone
  | PyStr (s : string)
  | PyInt (z : Z)
  | PyDatetime (t : datetime).

Inductive exn :=
  | UpdateFailed
  | IndexError
  | TypeError.

Inductive OpendataTransportError := OpendataTransportError_ : OpendataTransportError.

(** [timedelta(minutes=m)] *)
Definition minutes (m : Z) : timedelta := m * 60 * 1000000.

(** The normalised components of a timedelta: [0 <= seconds < 86400] and
    [0 <= microseconds < 1000000], the sign is carried by [days]. *)
Definition td_days (td : timedelta) : Z := td `div` 86400000000.
Definition td_seconds (td : timedelta) : Z := (td `mod` 86400000000) `div` 1000000.
Definition td_microseconds (td : timedelta) : Z := td `mod` 1000000.

(** ["%0wd" % z] for a non-negative [z] *)
Fixpoint zero_pad_go (n : nat) (s : string) : string :=
  match n with
  | O => s
  | S n' => zero_pad_go n' ("0" +:+ s)
  end.

Definition zero_pad (w : nat) (z : Z) : string :=
  let s := pretty z in
  zero_pad_go (w - String.length s) s.

(** [timedelta.__str__] *)
Definition str_timedelta (td : timedelta) : string :=
  let mm := td_seconds td `div` 60 in
  let ss := td_seconds td `mod` 60 in
  let hh := mm `div` 60 in
  let mm := mm `mod` 60 in
  let s := pretty hh +:+ ":" +:+ zero_pad 2 mm +:+ ":" +:+ zero_pad 2 ss in
  let s :=
    if bool_decide (td_days td = 0) then s
    else pretty (td_days td) +:+ " day"
         +:+ (if bool_decide (Z.abs (td_days td) = 1) then "" else "s")
         +:+ ", " +:+ s in
  if bool_decide (td_microseconds td = 0) then s
  else s +:+ "." +:+ zero_pad 6 (td_microseconds td).

(** [str(x)] for [x : timedelta | None] *)
Definition str (x : option timedelta) : string :=
  match x with
  | Some td => str_timedelta td
  | None => "None"
  end.

(** [l[i]] on a Python list: negative indices count from the end, an index
    out of range raises [IndexError]. *)
Definition getitem {A} (l : list A) (i : Z) : exn + A :=
  let n := Z.of_nat (length l) in
  let j := if bool_decide (i < 0) then i + n else i in
  if bool_decide (0 <= j < n) then
    match l !! Z.to_nat j with
    | Some x => inr x
    | None => inl IndexError
    end
  else inl IndexError.

(** ** Data model (coordinator.py) *)

(** One entry of [OpendataTransport.connections], with the keys the
    coordinator reads. *)
Record RawConnection := {
  raw_departure : string;
  raw_number : pyval;
  raw_platform : pyval;
  raw_transfers : pyval;
  raw_duration : pyval;
  raw_delay : pyval;
}.

Record DataConnection := {
  departure : pyval;
  duration : pyval;
  platform : pyval;
  remaining_time : pyval;
  start : pyval;
  destination : pyval;
  train_number : pyval;
  transfers : pyval;
  delay : pyval;
}.

(** The upstream client object, as far as the coordinator reads it. *)
Record OpendataTransport := {
  connections : list (option RawConnection);
  from_name : pyval;
  to_name : pyval;
}.

Record World := {
  opendata : OpendataTransport;            (* coordinator._opendata *)
  data : list (option DataConnection);     (* coordinator.data *)
  clock_reads : nat;                       (* calls of dt_util.utcnow so far *)
  log : list string;                       (* warnings sent to _LOGGER *)
}.

(** ** The state and exception monad *)

Definition M (A : Type) : Type := World -> (exn + A) * World.

Definition ret {A} (a : A) : M A := fun w => (inr a, w).

Definition raise {A} (e : exn) : M A := fun w => (inl e, w).

Definition bind {A B} (m : M A) (k : A -> M B) : M B :=
  fun w =>
    match m w with
    | (inr a, w') => k a w'
    | (inl e, w') => (inl e, w')
    end.

Definition gets {A} (f : World -> A) : M A := fun w => (inr (f w), w).

Definition lift {A} (r : exn + A) : M A := fun w => (r, w).

Declare Scope py_scope.
Delimit Scope py_scope with py.
Notation "x <- m ;; k" := (bind m (fun x => k))
  (at level 100, m at next level, right associativity) : py_scope.
Local Open Scope py_scope.

(** ** The environment of the integration

    What the two source files import from elsewhere: the constant of
    [const.py], the parser of [homeassistant.util.dt], the wall clock and
    the upstream client's fetch. *)
Class Environment := {
  SENSOR_CONNECTIONS_COUNT : nat;
  (** [dt_util.parse_datetime]: [None] when the string does not parse *)
  parse_datetime : string -> option datetime;
  (** the instant returned by the [k]-th call of [dt_util.utcnow] *)
  utcnow_at : nat -> datetime;
  (** [OpendataTransport.async_get_data]: raises or returns, and leaves
      the client object in a new state either way *)
  async_get_data : OpendataTransport -> (OpendataTransportError + unit) * OpendataTransport;
}.

Definition as_local (t : datetime) : datetime := t.

(** ** The coordinator (coordinator.py) *)

Definition set_opendata (o : OpendataTransport) (w : World) : World :=
  {| opendata := o; data := data w; clock_reads := clock_reads w; log := log w |}.

Definition set_data (d : list (option DataConnection)) (w : World) : World :=
  {| opendata := opendata w; data := d; clock_reads := clock_reads w; log := log w |}.

Definition tick (w : World) : World :=
  {| opendata := opendata w; data := data w; clock_reads := S (clock_reads w); log := log w |}.

(** The world after an optional clock read. *)
Definition tick_if {A} (x : option A) (w : World) : World :=
  match x with
  | Some _ => tick w
  | None => w
  end.

Definition add_log (msg : string) (w : World) : World :=
  {| opendata := opendata w; data := data w; clock_reads := clock_reads w; log := msg :: log w |}.

Definition of_datetime (x : option datetime) : pyval :=
  match x with
  | Some t => PyDatetime t
  | None => PyNone
  end.

Section Coordinator.
Context `{Environment}.

(** [dt_util.utcnow()] *)
Definition utcnow : M datetime :=
  fun w => (inr (utcnow_at (clock_reads w)), tick w).

(** [_LOGGER.warning(msg)] *)
Definition warning (msg : string) : M unit :=
  fun w => (inr tt, add_log msg w).

(** [await self._opendata.async_get_data()], the exception reified *)
Definition opendata_async_get_data : M (OpendataTransportError + unit) :=
  fun w => (inr (async_get_data (opendata w)).1,
            set_opendata (async_get_data (opendata w)).2 w).

(** [SwissPublicTransportDataUpdateCoordinator.remaining_time] *)
Definition coordinator_remaining_time (departure : string) : M (option timedelta) :=
  let departure_datetime := parse_datetime departure in
  match departure_datetime with
  | Some d => now <- utcnow ;; ret (Some (d - as_local now))
  | None => ret None
  end.

(** The [DataConnection(...)] expression of the comprehension, for the
    upstream entry [c = connections[i]]; the keyword arguments are
    evaluated in the order they are written. *)
Definition make_connection (o : OpendataTransport) (c : RawConnection) : M DataConnection :=
  let departure_ := of_datetime (parse_datetime (raw_departure c)) in
  let train_number_ := raw_number c in
  let platform_ := raw_platform c in
  let transfers_ := raw_transfers c in
  let duration_ := raw_duration c in
  let start_ := from_name o in
  let destination_ := to_name o in
  rt <- coordinator_remaining_time (raw_departure c) ;;
  let remaining_time_ := PyStr (str rt) in
  let delay_ := raw_delay c in
  ret {| departure := departure_; duration := duration_; platform := platform_;
         remaining_time := remaining_time_; start := start_;
         destination := destination_; train_number := train_number_;
         transfers := transfers_; delay := delay_ |}.

(** The list comprehension over the indices [is_]. The lookup
    [conns !! i] is [None] when [len(connections) > i] fails and
    [Some None] when [connections[i] is None]; both skip the index. *)
Fixpoint comprehension (o : OpendataTransport) (conns : list (option RawConnection))
    (is_ : list nat) : M (list (option DataConnection)) :=
  match is_ with
  | [] => ret []
  | i :: rest =>
      match conns !! i with
      | Some (Some c) =>
          r <- make_connection o c ;;
          rs <- comprehension o conns rest ;;
          ret (Some r :: rs)
      | _ => comprehension o conns rest
      end
  end.

Definition _async_update_data : M (list (option DataConnection)) :=
  r <- opendata_async_get_data ;;
  match r with
  | inl e =>
      _ <- warning "Unable to connect and retrieve data from transport.opendata.ch" ;;
      raise UpdateFailed
  | inr _ =>
      o <- gets opendata ;;
      let connections_ := connections o in
      comprehension o connections_ (seq 0 SENSOR_CONNECTIONS_COUNT)
  end.

(** Modelled from the spec: the host's refresh step
    ([DataUpdateCoordinator] in [homeassistant/helpers/update_coordinator.py],
    which is not among the two source files). "On success, transform and
    publish a new Result Set. On failure, surface a refresh-failed signal
    to the host scheduler; the previous Result Set remains the
    last-known-good value until a new success arrives." *)
Definition async_refresh : M unit :=
  fun w =>
    match _async_update_data w with
    | (inr rs, w') => (inr tt, set_data rs w')
    | (inl e, w') => (inl e, w')
    end.

(** The record built from the upstream entry [c] when a clock read, if
    one is needed, is the [k]-th. *)
Definition connection_at (o : OpendataTransport) (c : RawConnection) (k : nat) : DataConnection :=
  {| departure := of_datetime (parse_datetime (raw_departure c));
     duration := raw_duration c;
     platform := raw_platform c;
     remaining_time :=
       PyStr (str ((fun d => d - as_local (utcnow_at k)) <$> parse_datetime (raw_departure c)));
     start := from_name o;
     destination := to_name o;
     train_number := raw_number c;
     transfers := raw_transfers c;
     delay := raw_delay c |}.

End Coordinator.

(** ** The sensor views (sensor.py) *)

Inductive SensorDeviceClass := TIMESTAMP | DURATION.
Inductive UnitOfTime := SECONDS | MINUTES.

Record SwissPublicTransportSensorEntityDescription := {
  key : string;
  translation_key : string;
  device_class : option SensorDeviceClass;
  native_unit_of_measurement : option UnitOfTime;
  icon : string;
  value_fn : option DataConnection -> exn + pyval;
  exists_fn : option DataConnection -> bool;
  index : option Z;
}.

(** [data_connection[field]]: subscripting [None] raises [TypeError]. *)
Definition subscript (field : DataConnection -> pyval)
    (data_connection : option DataConnection) : exn + pyval :=
  match data_connection with
  | Some r => inr (field r)
  | None => inl TypeError
  end.

(** [data_connection is not None] *)
Definition is_not_None (data_connection : option DataConnection) : bool :=
  match data_connection with
  | Some _ => true
  | None => false
  end.

(** The element of the comprehension in [SENSORS] for [i]; the key is
    [f"departure{i or ''}"], the translation key [f"departure{i}"]. *)
Definition departure_description (i : nat) : SwissPublicTransportSensorEntityDescription :=
  {| key := "departure" +:+ (if bool_decide (i = 0%nat) then "" else pretty i);
     translation_key := "departure" +:+ pretty i;
     device_class := Some TIMESTAMP;
     native_unit_of_measurement := None;
     icon := "mdi:bus-clock";
     value_fn := subscript departure;
     exists_fn := is_not_None;
     index := Some (Z.of_nat i) |}.

Definition duration_description : SwissPublicTransportSensorEntityDescription :=
  {| key := "duration";
     translation_key := "duration";
     device_class := Some DURATION;
     native_unit_of_measurement := Some SECONDS;
     icon := "mdi:timeline-clock";
     value_fn := subscript duration;
     exists_fn := is_not_None;
     index := None |}.

Definition transfers_description : SwissPublicTransportSensorEntityDescription :=
  {| key := "transfers";
     translation_key := "transfers";
     device_class := None;
     native_unit_of_measurement := None;
     icon := "mdi:transit-transfer";
     value_fn := subscript transfers;
     exists_fn := is_not_None;
     index := None |}.

Definition platform_description : SwissPublicTransportSensorEntityDescription :=
  {| key := "platform";
     translation_key := "platform";
     device_class := None;
     native_unit_of_measurement := None;
     icon := "mdi:bus-stop-uncovered";
     value_fn := subscript platform;
     exists_fn := is_not_None;
     index := None |}.

Definition delay_description : SwissPublicTransportSensorEntityDescription :=
  {| key := "delay";
     translation_key := "delay";
     device_class := Some DURATION;
     native_unit_of_measurement := Some MINUTES;
     icon := "mdi:clock-plus";
     value_fn := subscript delay;
     exists_fn := is_not_None;
     index := None |}.

Definition SENSORS `{Environment} : list SwissPublicTransportSensorEntityDescription :=
  (departure_description <$> seq 0 SENSOR_CONNECTIONS_COUNT)
  ++ [duration_description; transfers_description; platform_description;
      delay_description].

(** [self.entity_description.index or 0]: [None] and [0] are falsy. *)
Definition index_or_0 (d : SwissPublicTransportSensorEntityDescription) : Z :=
  match index d with
  | None => 0
  | Some i => if bool_decide (i = 0) then 0 else i
  end.

(** [SwissPublicTransportSensor.enabled] *)
Definition enabled (d : SwissPublicTransportSensorEntityDescription) : M bool :=
  coordinator_data <- gets data ;;
  slot <- lift (getitem coordinator_data (index_or_0 d)) ;;
  ret (exists_fn d slot).

(** [SwissPublicTransportSensor.native_value] *)
Definition native_value (d : SwissPublicTransportSensorEntityDescription) : M pyval :=
  coordinator_data <- gets data ;;
  slot <- lift (getitem coordinator_data (index_or_0 d)) ;;
  lift (value_fn d slot).

(** [r] is the record the coordinator builds from the upstream entry [c],
    with a clock read numbered between [lo] and [hi]. *)
Definition built_from `{Environment} (o : OpendataTransport) (lo hi : nat)
    (c : RawConnection) (r : option DataConnection) : Prop :=
  exists k, (lo <= k <= hi)%nat /\ r = Some (connection_at o c k).

(** The upstream entries the comprehension keeps: the ones that are not
    [None] among the first [n] slots. *)
Definition kept (n : nat) (conns : list (option RawConnection)) : list RawConnection :=
  omap id (take n conns).

(** ** A concrete environment, for the examples *)

Module Example.

(** 2024-01-01 12:00:00 +01:00 *)
Definition t0 : datetime := 1704106800000000.

(** A stand-in for [dt_util.parse_datetime] that knows four timestamps. *)
Definition parse (s : string) : option datetime :=
  if bool_decide (s = "2024-01-01T12:02:00+0100") then Some (t0 + minutes 2)
  else if bool_decide (s = "2024-01-01T12:05:00+0100") then Some (t0 + minutes 5)
  else if bool_decide (s = "2024-01-01T12:10:00+0100") then Some (t0 + minutes 10)
  else if bool_decide (s = "2024-01-01T12:25:00+0100") then Some (t0 + minutes 25)
  else None.

(** An environment with three departure slots, a clock that starts at
    [t0] and advances a quarter of a second per read, and an upstream
    whose next fetch ends in [outcome] and leaves [response] in the
    client. *)
Definition env (outcome : OpendataTransportError + unit)
    (response : list (option RawConnection)) : Environment :=
  {| SENSOR_CONNECTIONS_COUNT := 3;
     parse_datetime := parse;
     utcnow_at := fun k => t0 + 250000 * Z.of_nat k;
     async_get_data := fun o =>
       (outcome,
        {| connections := response; from_name := from_name o; to_name := to_name o |}) |}.

Definition conn (dep : string) (delay_ : Z) : RawConnection :=
  {| raw_departure := dep;
     raw_number := PyStr "IC 8";
     raw_platform := PyStr "7";
     raw_transfers := PyInt 0;
     raw_duration := PyInt 3360;
     raw_delay := PyInt delay_ |}.

Definition previous : DataConnection :=
  {| departure := PyDatetime (t0 - minutes 1);
     duration := PyInt 3360;
     platform := PyStr "5";
     remaining_time := PyStr "0:00:30";
     start := PyStr "Bern";
     destination := PyStr "Basel SBB";
     train_number := PyStr "IC 6";
     transfers := PyInt 0;
     delay := PyInt 2 |}.

(** The state before a poll: one record published by the poll before. *)
Definition world : World :=
  {| opendata := {| connections := []; from_name := PyStr "Bern"; to_name := PyStr "Basel SBB" |};
     data := [Some previous];
     clock_reads := 0;
     log := [] |}.

Definition three : list (option RawConnection) :=
  [Some (conn "2024-01-01T12:02:00+0100" 0);
   Some (conn "2024-01-01T12:10:00+0100" 1);
   Some (conn "2024-01-01T12:25:00+0100" 0)].

Definition online (response : list (option RawConnection)) : Environment :=
  env (inr tt) response.

Definition offline : Environment := env (inl OpendataTransportError_) three.

(** An entry whose departure does not parse, then one that departs five
    minutes after [t0]. *)
Definition late_and_five : list (option RawConnection) :=
  [Some (conn "soon" 0); Some (conn "2024-01-01T12:05:00+0100" 3)].

(** Three null slots before the only connection. *)
Definition nulls_first : list (option RawConnection) :=
  [None; None; None; Some (conn "2024-01-01T12:05:00+0100" 0)].

(** A null slot before two connections. *)
Definition null_then_two : list (option RawConnection) :=
  [None; Some (conn "2024-01-01T12:10:00+0100" 1);
   Some (conn "2024-01-01T12:25:00+0100" 4)].

End Example.

(** ** Setting up the entities (sensor.py)

    [hass.data] is a dict of dicts, the issue registry is keyed by domain
    and issue id; both are finite maps. The coordinator object stored in
    [hass.data] is opaque to the set-up code. *)

Inductive setup_exn := KeyError (k : string).

Record ConfigEntry := {
  entry_id : string;
  unique_id : option string;
}.

Inductive DeviceEntryType := SERVICE.

Record DeviceInfo := {
  identifiers : list (string * option string);
  manufacturer : string;
  entry_type : DeviceEntryType;
}.

(** The instance attributes [SwissPublicTransportSensor.__init__] sets. *)
Record SwissPublicTransportSensor (C : Type) := {
  coordinator : C;
  entity_description : SwissPublicTransportSensorEntityDescription;
  _attr_unique_id : string;
  _attr_device_info : DeviceInfo;
}.
Arguments coordinator {C}.
Arguments entity_description {C}.
Arguments _attr_unique_id {C}.
Arguments _attr_device_info {C}.

(** [f"{x}"] for [x : str | None] *)
Definition format_str (x : option string) : string :=
  match x with
  | Some s => s
  | None => "None"
  end.

(** The members of [FlowResultType] that end or continue an import flow. *)
Inductive FlowResultType := FORM | CREATE_ENTRY | ABORT.

#[global] Instance FlowResultType_eq_dec : EqDecision FlowResultType.
Proof. solve_decision. Defined.

(** The keys of a flow result this module reads; ["reason"] may be
    missing. *)
Record FlowResult := {
  flow_type : FlowResultType;
  flow_reason : option string;
}.

Inductive IssueSeverity := CRITICAL | ERROR | WARNING.

Module Issue.
(** The keyword arguments of [async_create_issue]. *)
Record t := {
  breaks_in_ha_version : string;
  is_fixable : bool;
  issue_domain : string;
  severity : IssueSeverity;
  translation_key : string;
  translation_placeholders : list (string * string);
}.
End Issue.

(** [async_create_issue(hass, domain, issue_id, ...)] *)
Definition async_create_issue (domain issue_id : string) (issue : Issue.t)
    (registry : gmap (string * string) Issue.t) : gmap (string * string) Issue.t :=
  <[(domain, issue_id) := issue]> registry.

Section Setup.
Context `{Environment}.
(** [DOMAIN] and [PLACEHOLDERS] of [const.py], and [DOMAIN] of
    [homeassistant.core] *)
Variable DOMAIN : string.
Variable PLACEHOLDERS : list (string * string).
Variable HOMEASSISTANT_DOMAIN : string.
Variable C : Type.

(** [SwissPublicTransportSensor.__init__] *)
Definition SwissPublicTransportSensor_init (coordinator_ : C)
    (entity_description_ : SwissPublicTransportSensorEntityDescription)
    (unique_id_ : option string) : SwissPublicTransportSensor C :=
  {| coordinator := coordinator_;
     entity_description := entity_description_;
     _attr_unique_id := format_str unique_id_ +:+ "_" +:+ key entity_description_;
     _attr_device_info :=
       {| identifiers := [(DOMAIN, unique_id_)];
          manufacturer := "Opendata.ch";
          entry_type := SERVICE |} |}.

(** [async_setup_entry]; the result is the list handed to
    [async_add_entities]. *)
Definition async_setup_entry (hass_data : gmap string (gmap string C))
    (config_entry : ConfigEntry) : setup_exn + list (SwissPublicTransportSensor C) :=
  match hass_data !! DOMAIN with
  | None => inl (KeyError DOMAIN)
  | Some entries =>
      match entries !! entry_id config_entry with
      | None => inl (KeyError (entry_id config_entry))
      | Some coordinator_ =>
          let unique_id_ := unique_id config_entry in
          inr ((fun description =>
                  SwissPublicTransportSensor_init coordinator_ description unique_id_)
                 <$> SENSORS)
      end
  end.

(** [result["reason"]] *)
Definition result_reason (result : FlowResult) : setup_exn + string :=
  match flow_reason result with
  | Some r => inr r
  | None => inl (KeyError "reason")
  end.

(** The condition of [async_setup_platform]; [or] does not evaluate its
    right operand when the left one holds. *)
Definition import_succeeded (result : FlowResult) : setup_exn + bool :=
  match flow_type result with
  | CREATE_ENTRY => inr true
  | _ =>
      match result_reason result with
      | inr r => inr (bool_decide (r = "already_configured"))
      | inl e => inl e
      end
  end.

(** [async_setup_platform], from the result of the import flow on; the
    state is the issue registry. *)
Definition async_setup_platform (result : FlowResult)
    (registry : gmap (string * string) Issue.t)
    : (setup_exn + unit) * gmap (string * string) Issue.t :=
  match import_succeeded result with
  | inl e => (inl e, registry)
  | inr true =>
      (inr tt,
       async_create_issue HOMEASSISTANT_DOMAIN ("deprecated_yaml_" +:+ DOMAIN)
         {| Issue.breaks_in_ha_version := "2024.7.0";
            Issue.is_fixable := false;
            Issue.issue_domain := DOMAIN;
            Issue.severity := WARNING;
            Issue.translation_key := "deprecated_yaml";
            Issue.translation_placeholders :=
              [("domain", DOMAIN); ("integration_title", "Swiss public transport")] |}
         registry)
  | inr false =>
      match result_reason result with
      | inl e => (inl e, registry)
      | inr r =>
          (inr tt,
           async_create_issue DOMAIN ("deprecated_yaml_import_issue_$" +:+ r)
             {| Issue.breaks_in_ha_version := "2024.7.0";
                Issue.is_fixable := false;
                Issue.issue_domain := DOMAIN;
                Issue.severity := WARNING;
                Issue.translation_key := "deprecated_yaml_import_issue_$" +:+ r;
                Issue.translation_placeholders := PLACEHOLDERS |}
             registry)
      end
  end.

End Setup.

(** ** Concrete inputs for the set-up code *)

Module ExampleSetup.

Definition domain : string := "swiss_public_transport".

Definition placeholders : list (string * string) :=
  [("stationboard_url", "http://transport.opendata.ch/examples/stationboard.html")].

(** [hass.data] with one coordinator, here the number 7, registered. *)
Definition hass_data : gmap string (gmap string nat) :=
  {[ domain := {[ "entry-1" := 7%nat ]} ]}.

Definition config_entry : ConfigEntry :=
  {| entry_id := "entry-1"; unique_id := Some "Bern Basel SBB" |}.

Definition aborted (reason_ : string) : FlowResult :=
  {| flow_type := ABORT; flow_reason := Some reason_ |}.

End ExampleSetup.

(** ** The monad: running a computation *)

Lemma bind_run {A B} (m : M A) (k : A -> M B) w a w' :
  m w = (inr a, w') -> bind m k w = k a w'.
Proof. unfold bind. by intros ->. Qed.

Lemma bind_run_raise {A B} (m : M A) (k : A -> M B) w e w' :
  m w = (inl e, w') -> bind m k w = (inl e, w').
Proof. unfold bind. by intros ->. Qed.

(** ** The coordinator *)

Section CoordinatorFacts.
Context `{Environment}.

Lemma coordinator_remaining_time_run departure w :
  coordinator_remaining_time departure w =
    (inr ((fun d => d - as_local (utcnow_at (clock_reads w))) <$> parse_datetime departure),
     tick_if (parse_datetime departure) w).
Proof.
  unfold coordinator_remaining_time.
  destruct (parse_datetime departure); reflexivity.
Qed.

Lemma make_connection_run o c w :
  make_connection o c w =
    (inr (connection_at o c (clock_reads w)),
     tick_if (parse_datetime (raw_departure c)) w).
Proof.
  unfold make_connection.
  erewrite bind_run by apply coordinator_remaining_time_run.
  reflexivity.
Qed.

(** The comprehension never raises; it touches the clock only, and builds
    one record per kept index, in the order of the indices. *)
Lemma comprehension_run o conns is_ w :
  exists rs w',
    comprehension o conns is_ w = (inr rs, w')
    /\ opendata w' = opendata w /\ data w' = data w /\ log w' = log w
    /\ (clock_reads w <= clock_reads w')%nat
    /\ Forall2 (built_from o (clock_reads w) (clock_reads w'))
         (omap (fun i => conns !! i ≫= id) is_) rs.
Proof.
  revert w. induction is_ as [|i rest IH]; intros w.
  { exists [], w. simpl. repeat split; auto using Forall2_nil. }
  simpl. destruct (conns !! i) as [[c|]|] eqn:Hi; simpl.
  - set (w1 := tick_if (parse_datetime (raw_departure c)) w).
    assert (Hw1 : opendata w1 = opendata w /\ data w1 = data w /\ log w1 = log w
                  /\ (clock_reads w <= clock_reads w1)%nat).
    { subst w1. destruct (parse_datetime (raw_departure c)); simpl; auto with lia. }
    destruct Hw1 as (Ho & Hd & Hl & Hc).
    destruct (IH w1) as (rs & w' & Hrun & Ho' & Hd' & Hl' & Hc' & Hall).
    exists (Some (connection_at o c (clock_reads w)) :: rs), w'.
    split.
    { erewrite bind_run by apply make_connection_run.
      fold w1. erewrite bind_run by exact Hrun. reflexivity. }
    repeat split; try congruence; try lia.
    constructor.
    + exists (clock_reads w). split; [lia | reflexivity].
    + eapply Forall2_impl; [exact Hall|].
      intros c' r (k & Hk & ->). exists k. split; [lia | reflexivity].
  - apply IH.
  - apply IH.
Qed.

Lemma kept_seq_drop (conns : list (option RawConnection)) n j :
  omap (fun i => conns !! i ≫= id) (seq j n) = omap id (take n (drop j conns)).
Proof.
  revert j. induction n as [|n IH]; intros j; [reflexivity|].
  simpl seq. simpl omap. rewrite IH.
  destruct (conns !! j) as [x|] eqn:Hj.
  - rewrite (drop_S _ _ _ Hj). simpl. destruct x; reflexivity.
  - apply lookup_ge_None in Hj.
    rewrite !drop_ge by lia. simpl. by rewrite take_nil.
Qed.

Lemma kept_seq (conns : list (option RawConnection)) n :
  omap (fun i => conns !! i ≫= id) (seq 0 n) = kept n conns.
Proof. unfold kept. by rewrite kept_seq_drop, drop_0. Qed.

Lemma omap_id_length {A} (l : list (option A)) : (length (omap id l) <= length l)%nat.
Proof.
  induction l as [|[x|] l IH]; simpl; [lia| |];
    change (list_omap _ _ id l) with (omap id l); lia.
Qed.

Lemma kept_length n conns : (length (kept n conns) <= n)%nat.
Proof.
  unfold kept. etransitivity; [apply omap_id_length|].
  rewrite length_take. lia.
Qed.

(** A poll whose fetch succeeds returns a list and raises nothing; the
    list holds one record per kept upstream entry, in upstream order. *)
Lemma async_update_data_ok w u o' :
  async_get_data (opendata w) = (inr u, o') ->
  exists rs w',
    _async_update_data w = (inr rs, w')
    /\ opendata w' = o' /\ data w' = data w /\ log w' = log w
    /\ (clock_reads w <= clock_reads w')%nat
    /\ Forall2 (built_from o' (clock_reads w) (clock_reads w'))
         (kept SENSOR_CONNECTIONS_COUNT (connections o')) rs.
Proof.
  intros Hfetch. unfold _async_update_data.
  destruct (comprehension_run o' (connections o') (seq 0 SENSOR_CONNECTIONS_COUNT)
              (set_opendata o' w))
    as (rs & w' & Hrun & Ho & Hd & Hl & Hc & Hall).
  exists rs, w'. rewrite kept_seq in Hall. split.
  { unfold bind at 1, opendata_async_get_data. rewrite Hfetch. simpl.
    unfold bind, gets. simpl. exact Hrun. }
  simpl in *. auto.
Qed.

(** A poll whose fetch fails raises [UpdateFailed], after one warning;
    nothing else changes but what the fetch did to the client. *)
Lemma async_update_data_failed w e o' :
  async_get_data (opendata w) = (inl e, o') ->
  _async_update_data w =
    (inl UpdateFailed,
     add_log "Unable to connect and retrieve data from transport.opendata.ch"
       (set_opendata o' w)).
Proof.
  intros Hfetch. unfold _async_update_data, bind, opendata_async_get_data.
  rewrite Hfetch. reflexivity.
Qed.

Lemma built_from_not_None o lo hi c r : built_from o lo hi c r -> r <> None.
Proof. intros (k & _ & ->). discriminate. Qed.

End CoordinatorFacts.

(** ** The host's refresh step *)

Section RefreshFacts.
Context `{Environment}.

Lemma async_refresh_ok w u o' :
  async_get_data (opendata w) = (inr u, o') ->
  exists rs w',
    _async_update_data w = (inr rs, w')
    /\ async_refresh w = (inr tt, set_data rs w').
Proof.
  intros Hfetch.
  destruct (async_update_data_ok w u o' Hfetch) as (rs & w' & Hrun & _).
  exists rs, w'. split; [exact Hrun|].
  unfold async_refresh. by rewrite Hrun.
Qed.

Lemma async_refresh_failed w e o' :
  async_get_data (opendata w) = (inl e, o') ->
  exists w', async_refresh w = (inl UpdateFailed, w') /\ data w' = data w.
Proof.
  intros Hfetch. unfold async_refresh.
  rewrite (async_update_data_failed w e o' Hfetch).
  eexists. split; reflexivity.
Qed.

End RefreshFacts.

(** ** Properties of the coordinator *)

Section CoordinatorProperties.
Context `{Environment}.

(** C1. For every poll in which the upstream fetch succeeds, the update
    returns a list (the published Result Set) whose length is at most
    [SENSOR_CONNECTIONS_COUNT] and which has no null slot: every index
    below its length holds a [DataConnection], never [None]. *)
Theorem C1_result_set_bounded_no_null w u o' :
  async_get_data (opendata w) = (inr u, o') ->
  exists rs w',
    _async_update_data w = (inr rs, w')
    /\ (length rs <= SENSOR_CONNECTIONS_COUNT)%nat
    /\ forall i, (i < length rs)%nat -> exists r, rs !! i = Some (Some r).
Proof.
  intros Hfetch.
  destruct (async_update_data_ok w u o' Hfetch)
    as (rs & w' & Hrun & _ & _ & _ & _ & Hall).
  exists rs, w'. split; [exact Hrun|]. split.
  - rewrite <- (Forall2_length _ _ _ Hall). apply kept_length.
  - intros i Hi. apply lookup_lt_is_Some_2 in Hi as [r Hr].
    destruct (Forall2_lookup_r _ _ _ _ _ Hall Hr) as (c & _ & k & _ & ->).
    eauto.
Qed.

(** C2. If the upstream fetch raises, the update raises [UpdateFailed] and
    leaves the published Result Set ([coordinator.data]) as it was; if the
    fetch succeeds the update returns a list and raises nothing. *)
Theorem C2_update_failed_exactly_on_fetch_error w outcome o' :
  async_get_data (opendata w) = (outcome, o') ->
  match outcome with
  | inl _ =>
      exists w', _async_update_data w = (inl UpdateFailed, w') /\ data w' = data w
  | inr _ =>
      exists rs w', _async_update_data w = (inr rs, w')
  end.
Proof.
  intros Hfetch. destruct outcome as [e|u].
  - rewrite (async_update_data_failed w e o' Hfetch). eexists. split; reflexivity.
  - destruct (async_update_data_ok w u o' Hfetch) as (rs & w' & Hrun & _). eauto.
Qed.

(** What a returned list says about the fetch behind it. *)
Lemma async_update_data_returned w rs w' :
  _async_update_data w = (inr rs, w') ->
  opendata w' = (async_get_data (opendata w)).2
  /\ (clock_reads w <= clock_reads w')%nat
  /\ Forall2 (built_from (opendata w') (clock_reads w) (clock_reads w'))
       (kept SENSOR_CONNECTIONS_COUNT (connections (opendata w'))) rs.
Proof.
  intros Hrun.
  destruct (async_get_data (opendata w)) as [[e|u] o'] eqn:Hfetch.
  - rewrite (async_update_data_failed w e o' Hfetch) in Hrun. discriminate.
  - destruct (async_update_data_ok w u o' Hfetch)
      as (rs0 & w0 & Hrun0 & Ho & _ & _ & Hc & Hall).
    rewrite Hrun in Hrun0. injection Hrun0 as <- <-.
    rewrite Ho. auto.
Qed.

Lemma kept_elem_of n conns c : c ∈ kept n conns -> Some c ∈ conns.
Proof.
  unfold kept. intros Hc.
  apply list_elem_of_omap in Hc as (x & Hx & Hid). simpl in Hid. subst x.
  apply elem_of_take in Hx as (i & Hi & _).
  by eapply list_elem_of_lookup_2.
Qed.



(** C5, amended. When the fetch succeeds, the returned Result Set consists
    exactly of the records built from the non-null upstream entries among
    the first [SENSOR_CONNECTIONS_COUNT] slots, one record each, in
    upstream order, with nothing added; when the upstream list is no
    longer than [SENSOR_CONNECTIONS_COUNT] these are all its non-null
    entries. *)
Theorem C5_result_set_is_the_kept_connections w u o' :
  async_get_data (opendata w) = (inr u, o') ->
  exists rs w',
    _async_update_data w = (inr rs, w')
    /\ Forall2 (built_from o' (clock_reads w) (clock_reads w'))
         (omap id (take SENSOR_CONNECTIONS_COUNT (connections o'))) rs
    /\ length rs = length (omap id (take SENSOR_CONNECTIONS_COUNT (connections o')))
    /\ ((length (connections o') <= SENSOR_CONNECTIONS_COUNT)%nat ->
        Forall2 (built_from o' (clock_reads w) (clock_reads w'))
          (omap id (connections o')) rs
        /\ length rs = length (omap id (connections o'))).
Proof.
  intros Hfetch.
  destruct (async_update_data_ok w u o' Hfetch)
    as (rs & w' & Hrun & _ & _ & _ & _ & Hall).
  exists rs, w'. unfold kept in Hall.
  split; [exact Hrun|]. split; [exact Hall|]. split.
  { symmetry. eapply Forall2_length, Hall. }
  intros Hlen. rewrite take_ge in Hall by exact Hlen.
  split; [exact Hall|]. symmetry. eapply Forall2_length, Hall.
Qed.

End CoordinatorProperties.

(** ** Properties of the sensor views *)

Lemma getitem_0 {A} (l : list A) :
  getitem l 0 = match l with x :: _ => inr x | [] => inl IndexError end.
Proof.
  unfold getitem. destruct l as [|x l]; [reflexivity|].
  rewrite (bool_decide_eq_false_2 (0 < 0)) by lia.
  rewrite bool_decide_eq_true_2 by (simpl length; lia).
  reflexivity.
Qed.

Lemma getitem_nil {A} i : getitem (@nil A) i = inl IndexError.
Proof.
  unfold getitem. simpl length.
  rewrite bool_decide_eq_false_2; [reflexivity|].
  case_bool_decide; lia.
Qed.

Lemma enabled_run d w :
  enabled d w =
    (match getitem (data w) (index_or_0 d) with
     | inr slot => inr (exists_fn d slot)
     | inl e => inl e
     end, w).
Proof.
  unfold enabled, bind, gets, lift, ret.
  destruct (getitem (data w) (index_or_0 d)); reflexivity.
Qed.

Lemma native_value_run d w :
  native_value d w =
    (match getitem (data w) (index_or_0 d) with
     | inr slot => value_fn d slot
     | inl e => inl e
     end, w).
Proof.
  unfold native_value, bind, gets, lift.
  destruct (getitem (data w) (index_or_0 d)); reflexivity.
Qed.

(** On an empty Result Set every view raises [IndexError], whatever its
    slot. *)
Lemma enabled_empty d w : data w = [] -> enabled d w = (inl IndexError, w).
Proof. intros Hd. by rewrite enabled_run, Hd, getitem_nil. Qed.

Lemma native_value_empty d w : data w = [] -> native_value d w = (inl IndexError, w).
Proof. intros Hd. by rewrite native_value_run, Hd, getitem_nil. Qed.


Section SensorTable.
Context `{Environment}.

(** The members of the table: a departure view per slot below
    [SENSOR_CONNECTIONS_COUNT], and the four views without a slot. *)
Lemma SENSORS_inv d :
  d ∈ SENSORS ->
  (exists i, (i < SENSOR_CONNECTIONS_COUNT)%nat /\ d = departure_description i)
  \/ d = duration_description \/ d = transfers_description
  \/ d = platform_description \/ d = delay_description.
Proof.
  unfold SENSORS. rewrite elem_of_app, list_elem_of_fmap.
  intros [(i & -> & Hi)|Hd].
  - left. exists i. apply elem_of_seq in Hi. split; [lia | reflexivity].
  - right. rewrite !elem_of_cons in Hd.
    destruct Hd as [->|[->|[->|[->|Hd]]]]; auto.
    by apply elem_of_nil in Hd.
Qed.

Lemma SENSORS_departure i :
  (i < SENSOR_CONNECTIONS_COUNT)%nat -> departure_description i ∈ SENSORS.
Proof.
  intros Hi. unfold SENSORS. apply elem_of_app. left.
  apply list_elem_of_fmap_2, elem_of_seq. lia.
Qed.

Lemma SENSORS_unindexed :
  duration_description ∈ SENSORS /\ transfers_description ∈ SENSORS
  /\ platform_description ∈ SENSORS /\ delay_description ∈ SENSORS.
Proof.
  unfold SENSORS. rewrite !elem_of_app, !elem_of_cons. auto 10.
Qed.

Lemma departure_translation_key i :
  String.prefix "departure" (translation_key (departure_description i)) = true.
Proof.
  unfold departure_description, translation_key.
  generalize (pretty i). intros s. simpl.
  repeat (destruct (Ascii.ascii_dec _ _); [|congruence]).
  by destruct s.
Qed.

Lemma SENSORS_key_delay d : d ∈ SENSORS -> key d = "delay" -> d = delay_description.
Proof.
  intros Hd Hkey.
  destruct (SENSORS_inv d Hd) as [(i & _ & ->)|[->|[->|[->| ->]]]];
    try discriminate; reflexivity.
Qed.

Lemma SENSORS_key_duration d : d ∈ SENSORS -> key d = "duration" -> d = duration_description.
Proof.
  intros Hd Hkey.
  destruct (SENSORS_inv d Hd) as [(i & _ & ->)|[->|[->|[->| ->]]]];
    try discriminate; reflexivity.
Qed.


(** C8. The view descriptions are a fixed table: every departure view has
    device class timestamp and no unit, the duration view has device class
    duration and unit seconds, and the delay view has device class duration
    and unit minutes. *)
Theorem C8_static_table d :
  d ∈ SENSORS ->
  (String.prefix "departure" (translation_key d) = true ->
   device_class d = Some TIMESTAMP /\ native_unit_of_measurement d = None)
  /\ (key d = "duration" ->
      device_class d = Some DURATION /\ native_unit_of_measurement d = Some SECONDS)
  /\ (key d = "delay" ->
      device_class d = Some DURATION /\ native_unit_of_measurement d = Some MINUTES).
Proof.
  intros Hd. split; [|split].
  - intros Hdep.
    destruct (SENSORS_inv d Hd) as [(i & _ & ->)|[->|[->|[->| ->]]]];
      try discriminate. split; reflexivity.
  - intros Hkey. rewrite (SENSORS_key_duration d Hd Hkey). split; reflexivity.
  - intros Hkey. rewrite (SENSORS_key_delay d Hd Hkey). split; reflexivity.
Qed.

(** C9. A view of the table that is not a departure view carries no slot
    index, and for every view whose index is [None] or [0] the expression
    [index or 0] is [0], so that [enabled] and [native_value] both read
    slot 0 of the Result Set. *)
Theorem C9_views_without_index_read_slot_0 d w :
  d ∈ SENSORS ->
  (String.prefix "departure" (translation_key d) = false -> index d = None)
  /\ (index d = None \/ index d = Some 0 ->
      index_or_0 d = 0
      /\ enabled d w =
           (match data w with
            | slot :: _ => inr (exists_fn d slot)
            | [] => inl IndexError
            end, w)
      /\ native_value d w =
           (match data w with
            | slot :: _ => value_fn d slot
            | [] => inl IndexError
            end, w)).
Proof.
  intros Hd. split.
  - intros Hdep.
    destruct (SENSORS_inv d Hd) as [(i & _ & ->)|[->|[->|[->| ->]]]];
      try reflexivity.
    by rewrite departure_translation_key in Hdep.
  - intros Hidx.
    assert (H0 : index_or_0 d = 0).
    { unfold index_or_0. destruct Hidx as [->| ->]; reflexivity. }
    split; [exact H0|].
    rewrite enabled_run, native_value_run, H0, getitem_0.
    destruct (data w); split; reflexivity.
Qed.

(** C10. On every record of a Result Set returned by a successful poll,
    the [exists_fn] of every view of the table answers true: the
    coordinator has dropped the null slots, so [data_connection is not
    None] never sees a null record. *)
Theorem C10_exists_fn_true_on_published_records w rs w' d r :
  _async_update_data w = (inr rs, w') ->
  d ∈ SENSORS ->
  r ∈ rs ->
  exists_fn d r = true.
Proof.
  intros Hrun Hd Hr.
  destruct (async_update_data_returned w rs w' Hrun) as (_ & _ & Hall).
  apply list_elem_of_lookup_1 in Hr as [i Hi].
  destruct (Forall2_lookup_r _ _ _ _ _ Hall Hi) as (c & _ & k & _ & ->).
  destruct (SENSORS_inv d Hd) as [(j & _ & ->)|[->|[->|[->| ->]]]]; reflexivity.
Qed.

End SensorTable.

(** ** The worked example of the specification *)

Section ThreeRecords.
Context `{Environment}.


End ThreeRecords.

(** ** The properties at concrete inputs *)

Lemma C1_witness :
  exists rs w',
    @_async_update_data (Example.online Example.three) Example.world = (inr rs, w')
    /\ (length rs <= 3)%nat
    /\ forall i, (i < length rs)%nat -> exists r, rs !! i = Some (Some r).
Proof.
  exact (@C1_result_set_bounded_no_null (Example.online Example.three)
           Example.world tt _ eq_refl).
Defined.

Lemma C2_witness :
  (exists w',
      @_async_update_data Example.offline Example.world = (inl UpdateFailed, w')
      /\ data w' = data Example.world)
  /\ (exists rs w',
      @_async_update_data (Example.online Example.three) Example.world = (inr rs, w')).
Proof.
  split.
  - exact (@C2_update_failed_exactly_on_fetch_error Example.offline
             Example.world (inl OpendataTransportError_) _ eq_refl).
  - exact (@C2_update_failed_exactly_on_fetch_error (Example.online Example.three)
             Example.world (inr tt) _ eq_refl).
Defined.



(** With the first clock read at [t0], the entry that does not parse is
    rendered as [None] and the departure five minutes after [t0] as
    [0:05:00]. *)
Example remaining_time_five_minutes :
  exists r0 r1 w',
    @_async_update_data (Example.online Example.late_and_five) Example.world
      = (inr [Some r0; Some r1], w')
    /\ remaining_time r0 = PyStr "None"
    /\ remaining_time r1 = PyStr "0:05:00".
Proof.
  eexists _, _, _. split; [vm_compute; reflexivity|]. split; reflexivity.
Qed.

(** C4, on the code. When the upstream returns an empty list the Result
    Set is empty, as the claim says; but then [enabled] does not answer
    false: for every view of the table the lookup of its slot in the empty
    list raises [IndexError]. *)
Theorem C4_enabled_raises_on_empty_result_set :
  exists w',
    @_async_update_data (Example.online []) Example.world = (inr [], w')
    /\ Forall (fun d => enabled d (set_data [] w') = (inl IndexError, set_data [] w')
                        /\ (enabled d (set_data [] w')).1 <> inr false)
         (@SENSORS (Example.online [])).
Proof.
  eexists. split; [reflexivity|].
  apply Forall_forall. intros d _.
  rewrite enabled_empty by reflexivity. split; [reflexivity | discriminate].
Qed.

(** C5, as stated, fails when null slots precede a connection beyond the
    first [SENSOR_CONNECTIONS_COUNT] slots: the upstream list has one
    non-null connection, fewer than three, and the Result Set is empty. *)
Lemma C5_counterexample :
  (length (omap id Example.nulls_first)
   < @SENSOR_CONNECTIONS_COUNT (Example.online Example.nulls_first))%nat
  /\ exists w',
      @_async_update_data (Example.online Example.nulls_first) Example.world = (inr [], w')
      /\ length (@nil (option DataConnection)) <> length (omap id Example.nulls_first).
Proof.
  split; [vm_compute; lia|].
  eexists. split; [reflexivity|]. vm_compute. discriminate.
Qed.

Lemma C5_witness :
  exists rs w',
    @_async_update_data (Example.online Example.late_and_five) Example.world = (inr rs, w')
    /\ Forall2 (@built_from (Example.online Example.late_and_five)
                  (@async_get_data (Example.online Example.late_and_five)
                     (opendata Example.world)).2 0 (clock_reads w'))
         (omap id (take 3 Example.late_and_five)) rs
    /\ length rs = length (omap id (take 3 Example.late_and_five))
    /\ ((length Example.late_and_five <= 3)%nat ->
        Forall2 (@built_from (Example.online Example.late_and_five)
                   (@async_get_data (Example.online Example.late_and_five)
                      (opendata Example.world)).2 0 (clock_reads w'))
          (omap id Example.late_and_five) rs
        /\ length rs = length (omap id Example.late_and_five)).
Proof.
  exact (@C5_result_set_is_the_kept_connections (Example.online Example.late_and_five)
           Example.world tt _ eq_refl).
Defined.



Lemma C8_witness :
  (device_class (departure_description 1) = Some TIMESTAMP
   /\ native_unit_of_measurement (departure_description 1) = None)
  /\ (device_class duration_description = Some DURATION
      /\ native_unit_of_measurement duration_description = Some SECONDS)
  /\ (device_class delay_description = Some DURATION
      /\ native_unit_of_measurement delay_description = Some MINUTES).
Proof.
  split; [|split].
  - apply (@C8_static_table (Example.online Example.three) (departure_description 1));
      [|reflexivity].
    apply list_elem_of_further, list_elem_of_here.
  - apply (@C8_static_table (Example.online Example.three) duration_description);
      [|reflexivity].
    do 3 apply list_elem_of_further. apply list_elem_of_here.
  - apply (@C8_static_table (Example.online Example.three) delay_description);
      [|reflexivity].
    do 6 apply list_elem_of_further. apply list_elem_of_here.
Defined.

Lemma C9_witness :
  index delay_description = None
  /\ index_or_0 delay_description = 0
  /\ enabled delay_description Example.world = (inr true, Example.world)
  /\ native_value delay_description Example.world = (inr (PyInt 2), Example.world).
Proof.
  assert (Hd : delay_description ∈ @SENSORS (Example.online Example.three)).
  { do 6 apply list_elem_of_further. apply list_elem_of_here. }
  destruct (@C9_views_without_index_read_slot_0 (Example.online Example.three)
              delay_description Example.world Hd) as [Hnone Hslot].
  split; [exact (Hnone eq_refl)|].
  exact (Hslot (or_introl (Hnone eq_refl))).
Defined.

Lemma C10_witness :
  exists_fn (departure_description 2)
    (Some (@connection_at (Example.online Example.three)
             (@async_get_data (Example.online Example.three) (opendata Example.world)).2
             (Example.conn "2024-01-01T12:10:00+0100" 1) 1)) = true.
Proof.
  refine (@C10_exists_fn_true_on_published_records (Example.online Example.three)
            Example.world _ _ (departure_description 2) _ eq_refl _ _).
  - do 2 apply list_elem_of_further. apply list_elem_of_here.
  - apply list_elem_of_further, list_elem_of_here.
Defined.

(** ** Further properties of the coordinator *)

Section CoordinatorEffects.
Context `{Environment}.

Lemma bind_ret_state {A B} (m : M A) (f : A -> B) w :
  ((a <- m ;; ret (f a)) w).2 = (m w).2.
Proof. unfold bind, ret. by destruct (m w) as [[e|a] w']. Qed.

Lemma bind_ret_value {A B} (m : M A) (f : A -> B) w :
  ((a <- m ;; ret (f a)) w).1 =
    match (m w).1 with inr a => inr (f a) | inl e => inl e end.
Proof. unfold bind, ret. by destruct (m w) as [[e|a] w']. Qed.

Lemma tick_if_set_data {A} (x : option A) d w :
  tick_if x (set_data d w) = set_data d (tick_if x w).
Proof. by destruct x. Qed.

Lemma comprehension_set_data o conns is_ d w :
  comprehension o conns is_ (set_data d w) =
    ((comprehension o conns is_ w).1, set_data d (comprehension o conns is_ w).2).
Proof.
  revert w. induction is_ as [|i rest IH]; intros w; [reflexivity|].
  simpl. destruct (conns !! i) as [[c|]|]; [|apply IH..].
  rewrite (bind_run _ _ _ _ _ (make_connection_run o c (set_data d w))).
  rewrite (bind_run _ _ _ _ _ (make_connection_run o c w)).
  rewrite tick_if_set_data. unfold bind. rewrite IH. simpl.
  by destruct (comprehension o conns rest
                 (tick_if (parse_datetime (raw_departure c)) w)) as [[e|rs] w'].
Qed.

Lemma comprehension_clock o conns is_ w :
  clock_reads (comprehension o conns is_ w).2 =
    (clock_reads w
     + length (filter (fun c => is_Some (parse_datetime (raw_departure c)))
                 (omap (fun i => conns !! i ≫= id) is_)))%nat.
Proof.
  revert w. induction is_ as [|i rest IH]; intros w; [simpl; lia|].
  simpl. destruct (conns !! i) as [[c|]|]; simpl; [|apply IH..].
  erewrite bind_run by apply make_connection_run.
  rewrite bind_ret_state, IH.
  destruct (parse_datetime (raw_departure c)) as [t|] eqn:Hparse.
  - rewrite filter_cons_True by (rewrite Hparse; eauto).
    cbn [tick_if tick clock_reads length]. symmetry. apply Nat.add_succ_r.
  - rewrite filter_cons_False by (rewrite Hparse; intros [? ?]; discriminate).
    reflexivity.
Qed.

(** X1. A poll logs its warning exactly when the fetch fails, and then
    exactly once and without reading the clock; a poll whose fetch
    succeeds logs nothing. *)
Theorem poll_warns_exactly_on_fetch_error w :
  match (async_get_data (opendata w)).1 with
  | inl _ =>
      log (_async_update_data w).2 =
        "Unable to connect and retrieve data from transport.opendata.ch" :: log w
      /\ clock_reads (_async_update_data w).2 = clock_reads w
  | inr _ => log (_async_update_data w).2 = log w
  end.
Proof.
  destruct (async_get_data (opendata w)) as [[e|u] o'] eqn:Hfetch; simpl.
  - by rewrite (async_update_data_failed w e o' Hfetch).
  - destruct (async_update_data_ok w u o' Hfetch) as (rs & w' & -> & _ & _ & Hl & _).
    exact Hl.
Qed.

(** X2. Every record of a returned Result Set copies the number,
    platform, transfers, duration and delay of one upstream entry, holds
    that entry's parsed departure, and takes its start and destination from
    the names the client holds after the fetch. *)
Theorem records_copy_upstream_fields w rs w' r :
  _async_update_data w = (inr rs, w') ->
  Some r ∈ rs ->
  start r = from_name (opendata w')
  /\ destination r = to_name (opendata w')
  /\ exists c,
      Some c ∈ connections (opendata w')
      /\ train_number r = raw_number c
      /\ platform r = raw_platform c
      /\ transfers r = raw_transfers c
      /\ duration r = raw_duration c
      /\ delay r = raw_delay c
      /\ departure r = of_datetime (parse_datetime (raw_departure c)).
Proof.
  intros Hrun Hr.
  destruct (async_update_data_returned w rs w' Hrun) as (_ & _ & Hall).
  apply list_elem_of_lookup_1 in Hr as [i Hi].
  destruct (Forall2_lookup_r _ _ _ _ _ Hall Hi) as (c & Hc & k & _ & Heq).
  injection Heq as ->. split; [reflexivity|]. split; [reflexivity|].
  exists c. split; [|by repeat split].
  eapply kept_elem_of, list_elem_of_lookup_2, Hc.
Qed.

(** X4. A poll does not look at the Result Set published before: from two
    states that differ only in [coordinator.data] it returns the same
    outcome and leaves the same state, up to that data. *)
Theorem poll_ignores_published_data d w :
  _async_update_data (set_data d w) =
    ((_async_update_data w).1, set_data d (_async_update_data w).2).
Proof.
  unfold _async_update_data, bind, opendata_async_get_data, gets. simpl.
  destruct (async_get_data (opendata w)) as [[e|u] o']; simpl; [reflexivity|].
  apply (comprehension_set_data o' (connections o') _ d (set_opendata o' w)).
Qed.

(** X5. A poll whose fetch succeeds reads the clock once for each kept
    upstream entry whose departure parses, and not otherwise; so at most
    [SENSOR_CONNECTIONS_COUNT] times. *)
Theorem poll_reads_clock_once_per_parsed_departure w u o' :
  async_get_data (opendata w) = (inr u, o') ->
  clock_reads (_async_update_data w).2 =
    (clock_reads w
     + length (filter (fun c => is_Some (parse_datetime (raw_departure c)))
                 (omap id (take SENSOR_CONNECTIONS_COUNT (connections o')))))%nat
  /\ (clock_reads (_async_update_data w).2
      <= clock_reads w + SENSOR_CONNECTIONS_COUNT)%nat.
Proof.
  intros Hfetch.
  assert (Hrun : _async_update_data w =
                 comprehension o' (connections o') (seq 0 SENSOR_CONNECTIONS_COUNT)
                   (set_opendata o' w)).
  { unfold _async_update_data, bind at 1, opendata_async_get_data.
    by rewrite Hfetch. }
  rewrite Hrun, comprehension_clock, kept_seq. simpl. split; [reflexivity|].
  pose proof (length_filter (fun c => is_Some (parse_datetime (raw_departure c)))
                (kept SENSOR_CONNECTIONS_COUNT (connections o'))) as Hf.
  pose proof (kept_length SENSOR_CONNECTIONS_COUNT (connections o')).
  unfold kept in *. lia.
Qed.

(** X6. The update never writes [coordinator.data] itself, whether it
    returns or raises: right after it every view reports what it reported
    before. *)
Theorem views_unchanged_by_poll d w :
  data (_async_update_data w).2 = data w
  /\ (enabled d (_async_update_data w).2).1 = (enabled d w).1
  /\ (native_value d (_async_update_data w).2).1 = (native_value d w).1.
Proof.
  assert (Hd : data (_async_update_data w).2 = data w).
  { destruct (async_get_data (opendata w)) as [[e|u] o'] eqn:Hfetch.
    - by rewrite (async_update_data_failed w e o' Hfetch).
    - destruct (async_update_data_ok w u o' Hfetch) as (rs & w' & -> & _ & Hd & _).
      exact Hd. }
  split; [exact Hd|]. rewrite !enabled_run, !native_value_run. simpl.
  by rewrite Hd.
Qed.

End CoordinatorEffects.

(** ** Rendered strings *)

Lemma string_length_app (s1 s2 : string) :
  String.length (s1 +:+ s2) = (String.length s1 + String.length s2)%nat.
Proof. induction s1 as [|a s1 IH]; simpl; [reflexivity|]. by rewrite IH. Qed.

Lemma pretty_N_go_length (x : N) (s : string) :
  (String.length s + (if decide (x = 0%N) then 0 else 1)
   <= String.length (pretty_N_go x s))%nat.
Proof.
  revert s. induction (N.lt_wf_0 x) as [x _ IH]; intros s.
  destruct (decide (x = 0%N)) as [->|Hx].
  - rewrite pretty_N_go_0. lia.
  - rewrite pretty_N_go_step by lia.
    assert (Hlt : (x `div` 10 < x)%N) by (apply N.div_lt; lia).
    pose proof (IH _ Hlt (String (pretty_N_char (x `mod` 10)) s)) as Hlen.
    cbn [String.length] in Hlen.
    destruct (decide (x `div` 10 = 0)%N); lia.
Qed.

Lemma pretty_N_nonempty (x : N) : (1 <= String.length (pretty x))%nat.
Proof.
  unfold pretty, pretty_N. destruct (decide (x = 0%N)) as [->|Hx]; [simpl; lia|].
  pose proof (pretty_N_go_length x "") as Hlen.
  rewrite decide_False in Hlen by exact Hx. simpl in Hlen. lia.
Qed.

Lemma pretty_nat_nonempty (n : nat) : (1 <= String.length (pretty n))%nat.
Proof. apply pretty_N_nonempty. Qed.

Lemma pretty_Z_nonempty (z : Z) : (1 <= String.length (pretty z))%nat.
Proof.
  destruct z as [|x|x]; [simpl; lia|apply pretty_N_nonempty|].
  change (pretty (Z.neg x)) with ("-" +:+ pretty x).
  rewrite string_length_app. simpl. lia.
Qed.

Lemma zero_pad_go_length n s :
  String.length (zero_pad_go n s) = (n + String.length s)%nat.
Proof.
  revert s. induction n as [|n IH]; intros s; [reflexivity|].
  simpl. rewrite IH, string_length_app. simpl. lia.
Qed.

Lemma zero_pad_length w z : (w <= String.length (zero_pad w z))%nat.
Proof. unfold zero_pad. rewrite zero_pad_go_length. lia. Qed.

(** A rendered timedelta has at least the seven characters of [H:MM:SS]. *)
Lemma str_timedelta_length td : (7 <= String.length (str_timedelta td))%nat.
Proof.
  unfold str_timedelta.
  set (mm := td_seconds td `div` 60). set (ss := td_seconds td `mod` 60).
  pose proof (pretty_Z_nonempty (mm `div` 60)).
  pose proof (zero_pad_length 2 (mm `mod` 60)).
  pose proof (zero_pad_length 2 ss).
  repeat case_bool_decide; rewrite !string_length_app; simpl; lia.
Qed.

Lemma str_timedelta_not_None td : str_timedelta td <> "None".
Proof.
  intros Heq. pose proof (str_timedelta_length td) as Hlen.
  rewrite Heq in Hlen. simpl in Hlen. lia.
Qed.

Section RenderedFields.
Context `{Environment}.

(** X3. In every record of a returned Result Set the departure is null
    exactly when the remaining-time field is the string [None]: both come
    from the same departure string, and no rendered timedelta reads
    [None]. *)
Theorem departure_null_iff_remaining_time_None w rs w' r :
  _async_update_data w = (inr rs, w') ->
  Some r ∈ rs ->
  departure r = PyNone <-> remaining_time r = PyStr "None".
Proof.
  intros Hrun Hr.
  destruct (async_update_data_returned w rs w' Hrun) as (_ & _ & Hall).
  apply list_elem_of_lookup_1 in Hr as [i Hi].
  destruct (Forall2_lookup_r _ _ _ _ _ Hall Hi) as (c & _ & k & _ & Heq).
  injection Heq as ->. simpl.
  destruct (parse_datetime (raw_departure c)) as [t|]; simpl; [|done].
  split; [discriminate|].
  intros Heq. injection Heq as Heq. by apply str_timedelta_not_None in Heq.
Qed.

End RenderedFields.

(** ** The views after a poll *)

Lemma getitem_nat {A} (l : list A) (i : nat) :
  getitem l (Z.of_nat i) =
    match l !! i with Some x => inr x | None => inl IndexError end.
Proof.
  unfold getitem.
  rewrite (bool_decide_eq_false_2 (Z.of_nat i < 0)) by lia.
  rewrite Nat2Z.id. case_bool_decide as Hi.
  - reflexivity.
  - rewrite lookup_ge_None_2 by lia. reflexivity.
Qed.

Lemma index_or_0_departure i : index_or_0 (departure_description i) = Z.of_nat i.
Proof. unfold index_or_0. simpl. case_bool_decide; lia. Qed.

Section ViewsAfterPoll.
Context `{Environment}.

(** The slot a view of the table reads, as a natural number. *)
Lemma SENSORS_slot d :
  d ∈ SENSORS ->
  exists j, index_or_0 d = Z.of_nat j /\ exists_fn d = is_not_None.
Proof.
  intros Hd.
  destruct (SENSORS_inv d Hd) as [(i & _ & ->)|[->|[->|[->| ->]]]].
  - exists i. split; [apply index_or_0_departure | reflexivity].
  - by exists 0%nat.
  - by exists 0%nat.
  - by exists 0%nat.
  - by exists 0%nat.
Qed.

(** X7. On a Result Set returned by a poll, [enabled] never answers
    false: for a view of the table it answers true when the view's slot
    lies within the Result Set and raises [IndexError] when it does not. *)
Theorem enabled_after_poll w rs w' p d :
  _async_update_data w = (inr rs, w') ->
  data p = rs ->
  d ∈ SENSORS ->
  enabled d p =
    (if bool_decide (Z.to_nat (index_or_0 d) < length rs)%nat
     then inr true else inl IndexError, p).
Proof.
  intros Hrun Hp Hd.
  destruct (async_update_data_returned w rs w' Hrun) as (_ & _ & Hall).
  destruct (SENSORS_slot d Hd) as (j & Hj & Hexists).
  rewrite enabled_run, Hp, Hj, getitem_nat, Nat2Z.id, Hexists.
  destruct (rs !! j) as [r|] eqn:Hr.
  - destruct (Forall2_lookup_r _ _ _ _ _ Hall Hr) as (c & _ & k & _ & ->).
    apply lookup_lt_Some in Hr. by rewrite bool_decide_eq_true_2.
  - apply lookup_ge_None in Hr. rewrite bool_decide_eq_false_2 by lia. reflexivity.
Qed.

(** X8. After a poll the departure view for slot [i] reports the parsed
    departure of the [i]-th kept upstream entry (null when it does not
    parse), and raises [IndexError] when fewer entries were kept. The slot
    counts kept entries, not upstream positions. *)
Theorem departure_view_after_poll w rs w' p i :
  _async_update_data w = (inr rs, w') ->
  data p = rs ->
  native_value (departure_description i) p =
    (match omap id (take SENSOR_CONNECTIONS_COUNT (connections (opendata w'))) !! i with
     | Some c => inr (of_datetime (parse_datetime (raw_departure c)))
     | None => inl IndexError
     end, p).
Proof.
  intros Hrun Hp.
  destruct (async_update_data_returned w rs w' Hrun) as (_ & _ & Hall).
  rewrite native_value_run, Hp, index_or_0_departure, getitem_nat.
  apply Forall2_lookup with (i := i) in Hall. unfold kept in Hall.
  destruct Hall as [c r (k & _ & ->)|]; reflexivity.
Qed.

(** X9. After a poll the duration, transfers, platform and delay views
    report those fields of the first kept upstream entry, and raise
    [IndexError] when no entry was kept. *)
Theorem unindexed_views_after_poll w rs w' p :
  _async_update_data w = (inr rs, w') ->
  data p = rs ->
  let first := omap id (take SENSOR_CONNECTIONS_COUNT (connections (opendata w'))) !! 0%nat in
  let report (field : RawConnection -> pyval) :=
    (match first with Some c => inr (field c) | None => inl IndexError end, p) in
  native_value duration_description p = report raw_duration
  /\ native_value transfers_description p = report raw_transfers
  /\ native_value platform_description p = report raw_platform
  /\ native_value delay_description p = report raw_delay.
Proof.
  intros Hrun Hp. simpl.
  destruct (async_update_data_returned w rs w' Hrun) as (_ & _ & Hall).
  rewrite !native_value_run, Hp.
  change (index_or_0 duration_description) with (Z.of_nat 0).
  change (index_or_0 transfers_description) with (Z.of_nat 0).
  change (index_or_0 platform_description) with (Z.of_nat 0).
  change (index_or_0 delay_description) with (Z.of_nat 0).
  rewrite getitem_nat.
  apply Forall2_lookup with (i := 0%nat) in Hall. unfold kept in Hall.
  destruct Hall as [c r (k & _ & ->)|]; repeat split; reflexivity.
Qed.

End ViewsAfterPoll.

(** ** The table of descriptions and the entities made from it *)

Lemma string_app_inj (s a b : string) : s +:+ a = s +:+ b -> a = b.
Proof. induction s as [|c s IH]; simpl; [done|]. intros [=]. auto. Qed.

Lemma pretty_nat_not_empty (n : nat) : pretty n <> "".
Proof.
  intros Heq. pose proof (pretty_nat_nonempty n) as Hlen.
  rewrite Heq in Hlen. simpl in Hlen. lia.
Qed.

Lemma departure_key_inj i j :
  key (departure_description i) = key (departure_description j) -> i = j.
Proof.
  cbn [key departure_description]. intros Heq%string_app_inj.
  repeat case_bool_decide; subst; try done.
  - by destruct (pretty_nat_not_empty j).
  - by destruct (pretty_nat_not_empty i).
  - by apply (inj pretty).
Qed.

Lemma departure_translation_key_inj i j :
  translation_key (departure_description i) = translation_key (departure_description j) ->
  i = j.
Proof.
  cbn [translation_key departure_description]. intros Heq%string_app_inj.
  by apply (inj pretty).
Qed.

Section Table.
Context `{Environment}.

Lemma SENSORS_length : length SENSORS = (SENSOR_CONNECTIONS_COUNT + 4)%nat.
Proof. unfold SENSORS. rewrite length_app, length_fmap, length_seq. reflexivity. Qed.

Lemma SENSORS_key_NoDup : NoDup (key <$> SENSORS).
Proof.
  unfold SENSORS.
  rewrite fmap_app, <- list_fmap_compose. apply NoDup_app. split; [|split].
  - apply NoDup_fmap_2_strong; [|apply NoDup_seq].
    intros i j _ _. apply departure_key_inj.
  - intros k (i & -> & _)%list_elem_of_fmap.
    cbn. rewrite !elem_of_cons, elem_of_nil. intros [?|[?|[?|[?|[]]]]]; discriminate.
  - cbn. rewrite !NoDup_cons, !elem_of_cons, !elem_of_nil.
    repeat split; try apply NoDup_nil_2; intuition discriminate.
Qed.

Lemma SENSORS_translation_key_NoDup : NoDup (translation_key <$> SENSORS).
Proof.
  unfold SENSORS.
  rewrite fmap_app, <- list_fmap_compose. apply NoDup_app. split; [|split].
  - apply NoDup_fmap_2_strong; [|apply NoDup_seq].
    intros i j _ _. apply departure_translation_key_inj.
  - intros k (i & -> & _)%list_elem_of_fmap.
    cbn. rewrite !elem_of_cons, elem_of_nil. intros [?|[?|[?|[?|[]]]]]; discriminate.
  - cbn. rewrite !NoDup_cons, !elem_of_cons, !elem_of_nil.
    repeat split; try apply NoDup_nil_2; intuition discriminate.
Qed.

(** X10. The table holds [SENSOR_CONNECTIONS_COUNT + 4] descriptions, and
    no two of them share a key or a translation key. *)
Theorem SENSORS_keys_distinct :
  length SENSORS = (SENSOR_CONNECTIONS_COUNT + 4)%nat
  /\ NoDup (key <$> SENSORS)
  /\ NoDup (translation_key <$> SENSORS).
Proof.
  split; [apply SENSORS_length|].
  split; [apply SENSORS_key_NoDup | apply SENSORS_translation_key_NoDup].
Qed.

End Table.

(** X11. The key of a departure view carries its slot number except for
    slot 0, whose key is the bare [departure]; the translation key always
    carries the number. So key and translation key of a departure view
    agree exactly for the slots other than 0. *)
Theorem departure_key_drops_slot_0 i :
  (key (departure_description i) = "departure" <-> i = 0%nat)
  /\ (key (departure_description i) = translation_key (departure_description i)
      <-> i <> 0%nat).
Proof.
  cbn [key translation_key departure_description]. split.
  - case_bool_decide as Hi; split; try done.
    intros Heq. apply (string_app_inj "departure" _ "") in Heq.
    by destruct (pretty_nat_not_empty i).
  - case_bool_decide as Hi; split; try done.
    intros Heq%string_app_inj. symmetry in Heq.
    by destruct (pretty_nat_not_empty i).
Qed.

(** ** Setting up the entities *)

Lemma NoDup_fmap_inj_on {A B} (f : A -> B) (l : list A) x y :
  NoDup (f <$> l) -> x ∈ l -> y ∈ l -> f x = f y -> x = y.
Proof.
  intros Hnd [i Hi]%list_elem_of_lookup_1 [j Hj]%list_elem_of_lookup_1 Heq.
  assert (i = j) as ->.
  { eapply (NoDup_lookup _ _ _ (f x) Hnd).
    - by rewrite list_lookup_fmap, Hi.
    - by rewrite list_lookup_fmap, Hj, Heq. }
  congruence.
Qed.

Section SetupFacts.
Context `{Environment}.
Variable DOMAIN : string.
Variable PLACEHOLDERS : list (string * string).
Variable HOMEASSISTANT_DOMAIN : string.
Variable C : Type.

(** X12. [async_setup_entry] raises [KeyError] exactly when [hass.data]
    holds no coordinator for the domain and entry id, and then names the
    missing key: the domain when that is missing, otherwise the entry id. *)
Theorem async_setup_entry_raises_iff_unregistered
    (hass_data : gmap string (gmap string C)) config_entry :
  ((exists k, async_setup_entry DOMAIN C hass_data config_entry = inl (KeyError k))
   <-> hass_data !! DOMAIN ≫= (fun entries => entries !! entry_id config_entry) = None)
  /\ (hass_data !! DOMAIN = None ->
      async_setup_entry DOMAIN C hass_data config_entry = inl (KeyError DOMAIN))
  /\ (forall entries,
        hass_data !! DOMAIN = Some entries ->
        entries !! entry_id config_entry = None ->
        async_setup_entry DOMAIN C hass_data config_entry
          = inl (KeyError (entry_id config_entry))).
Proof.
  unfold async_setup_entry. split; [|split].
  - destruct (hass_data !! DOMAIN) as [entries|]; simpl; [|split; eauto].
    destruct (entries !! entry_id config_entry); simpl; [|split; eauto].
    split; [intros [k ?]|]; discriminate.
  - by intros ->.
  - by intros entries -> ->.
Qed.

(** X13. When the coordinator is registered, [async_setup_entry] adds one
    sensor per description of the table, in the table's order; every
    sensor holds that coordinator and the same device, identified by the
    domain and the entry's unique id. *)
Theorem async_setup_entry_adds_one_sensor_per_description
    (hass_data : gmap string (gmap string C)) config_entry entries coordinator_ :
  hass_data !! DOMAIN = Some entries ->
  entries !! entry_id config_entry = Some coordinator_ ->
  exists sensors,
    async_setup_entry DOMAIN C hass_data config_entry = inr sensors
    /\ entity_description <$> sensors = SENSORS
    /\ length sensors = (SENSOR_CONNECTIONS_COUNT + 4)%nat
    /\ Forall (fun s =>
         coordinator s = coordinator_
         /\ identifiers (_attr_device_info s) = [(DOMAIN, unique_id config_entry)]
         /\ manufacturer (_attr_device_info s) = "Opendata.ch") sensors.
Proof.
  intros Hd He. unfold async_setup_entry. rewrite Hd, He.
  eexists. split; [reflexivity|]. split; [|split].
  - rewrite <- list_fmap_compose. apply list_fmap_id.
  - rewrite length_fmap. apply SENSORS_length.
  - apply Forall_fmap, Forall_forall. by intros d _.
Qed.

(** X14. The sensors of one entry have pairwise distinct unique ids; each
    is the entry's unique id ([None] when the entry has none), an
    underscore and the key of the sensor's description. *)
Theorem async_setup_entry_unique_ids_distinct
    (hass_data : gmap string (gmap string C)) config_entry sensors :
  async_setup_entry DOMAIN C hass_data config_entry = inr sensors ->
  NoDup (_attr_unique_id <$> sensors)
  /\ Forall (fun s =>
       _attr_unique_id s =
         format_str (unique_id config_entry) +:+ "_" +:+ key (entity_description s))
       sensors.
Proof.
  unfold async_setup_entry.
  destruct (hass_data !! DOMAIN) as [entries|]; [|discriminate].
  destruct (entries !! entry_id config_entry) as [c|]; [|discriminate].
  intros [= <-]. split.
  - pose proof SENSORS_key_NoDup as Hkeys.
    rewrite <- list_fmap_compose.
    apply NoDup_fmap_2_strong; [|by eapply NoDup_fmap_1].
    intros d1 d2 Hd1 Hd2 Heq. simpl in Heq.
    apply string_app_inj, (string_app_inj "_") in Heq.
    by eapply (NoDup_fmap_inj_on key).
  - apply Forall_fmap, Forall_forall. by intros d _.
Qed.

End SetupFacts.

(** ** Setting up the platform from YAML *)

Section PlatformFacts.
Variable DOMAIN : string.
Variable PLACEHOLDERS : list (string * string).
Variable HOMEASSISTANT_DOMAIN : string.

(** X15. [async_setup_platform] raises exactly when the flow result is
    not a created entry and has no reason: the error is the [KeyError] of
    the missing key, and no issue is created. A created entry never has
    its reason read. *)
Theorem async_setup_platform_raises_iff_reason_missing result registry :
  (async_setup_platform DOMAIN PLACEHOLDERS HOMEASSISTANT_DOMAIN result registry
     = (inl (KeyError "reason"), registry)
   <-> flow_type result <> CREATE_ENTRY /\ flow_reason result = None)
  /\ ((async_setup_platform DOMAIN PLACEHOLDERS HOMEASSISTANT_DOMAIN result registry).1
        = inr tt
      <-> flow_type result = CREATE_ENTRY \/ is_Some (flow_reason result)).
Proof.
  unfold async_setup_platform, import_succeeded, result_reason.
  destruct result as [[] [r|]]; simpl; try case_bool_decide; simpl;
    rewrite ?is_Some_alt; split; split; intros; destruct_and?; destruct_or?;
    try done; eauto.
Qed.

(** X16. Whenever [async_setup_platform] returns it has made exactly one
    call of [async_create_issue], for an issue that is not fixable, is a
    warning, breaks in 2024.7.0 and belongs to the integration's domain.
    When the import created an entry, or was aborted as already
    configured, the issue is the deprecation notice filed under the
    [homeassistant] domain; otherwise it is filed under the integration's
    domain and its id, which is also its translation key, ends in a dollar
    sign followed by the reason. *)
Theorem async_setup_platform_creates_one_warning result registry :
  (async_setup_platform DOMAIN PLACEHOLDERS HOMEASSISTANT_DOMAIN result registry).1 = inr tt ->
  exists domain issue_id issue,
    (async_setup_platform DOMAIN PLACEHOLDERS HOMEASSISTANT_DOMAIN result registry).2
      = async_create_issue domain issue_id issue registry
    /\ Issue.is_fixable issue = false
    /\ Issue.severity issue = WARNING
    /\ Issue.breaks_in_ha_version issue = "2024.7.0"
    /\ Issue.issue_domain issue = DOMAIN
    /\ if bool_decide (flow_type result = CREATE_ENTRY
                       \/ flow_reason result = Some "already_configured")
       then domain = HOMEASSISTANT_DOMAIN
            /\ issue_id = "deprecated_yaml_" +:+ DOMAIN
            /\ Issue.translation_key issue = "deprecated_yaml"
       else domain = DOMAIN
            /\ Issue.translation_key issue = issue_id
            /\ Issue.translation_placeholders issue = PLACEHOLDERS
            /\ exists r, flow_reason result = Some r
                 /\ issue_id = "deprecated_yaml_import_issue_$" +:+ r.
Proof.
  unfold async_setup_platform, import_succeeded, result_reason.
  destruct result as [ty [r|]]; simpl.
  - destruct (decide (ty = CREATE_ENTRY \/ Some r = Some "already_configured"))
      as [Hacc|Hrej].
    + rewrite (bool_decide_eq_true_2 _ Hacc). intros _.
      assert (Hrun : match ty with
                     | CREATE_ENTRY => inr true
                     | _ => inr (bool_decide (r = "already_configured"))
                     end = (inr true : setup_exn + bool)).
      { destruct Hacc as [->|[= ->]]; [reflexivity|].
        destruct ty; try reflexivity; by rewrite bool_decide_eq_true_2. }
      rewrite Hrun. eexists _, _, _. by repeat split.
    + rewrite (bool_decide_eq_false_2 _ Hrej). intros _.
      assert (Hrun : match ty with
                     | CREATE_ENTRY => inr true
                     | _ => inr (bool_decide (r = "already_configured"))
                     end = (inr false : setup_exn + bool)).
      { destruct ty; try (by destruct Hrej; left);
          rewrite bool_decide_eq_false_2; try reflexivity;
          intros ->; apply Hrej; by right. }
      rewrite Hrun. eexists _, _, _. repeat split; eauto.
  - destruct ty; simpl; try discriminate. intros _.
    eexists _, _, _. by repeat split.
Qed.

(** X17. Imports that fail for different reasons file their issues under
    different ids, so neither replaces the other. *)
Theorem import_failure_issue_ids_distinct r1 r2 result1 result2 registry1 registry2 :
  flow_type result1 <> CREATE_ENTRY -> flow_reason result1 = Some r1 ->
  flow_type result2 <> CREATE_ENTRY -> flow_reason result2 = Some r2 ->
  r1 <> "already_configured" -> r2 <> "already_configured" ->
  r1 <> r2 ->
  exists id1 id2 issue1 issue2,
    async_setup_platform DOMAIN PLACEHOLDERS HOMEASSISTANT_DOMAIN result1 registry1
      = (inr tt, async_create_issue DOMAIN id1 issue1 registry1)
    /\ async_setup_platform DOMAIN PLACEHOLDERS HOMEASSISTANT_DOMAIN result2 registry2
      = (inr tt, async_create_issue DOMAIN id2 issue2 registry2)
    /\ id1 <> id2.
Proof.
  intros Ht1 Hr1 Ht2 Hr2 Hn1 Hn2 Hne.
  unfold async_setup_platform, import_succeeded, result_reason.
  rewrite Hr1, Hr2.
  rewrite (bool_decide_eq_false_2 _ Hn1), (bool_decide_eq_false_2 _ Hn2).
  destruct (flow_type result1), (flow_type result2); try done;
    (eexists _, _, _, _; split; [reflexivity|]; split; [reflexivity|];
     by intros Heq%string_app_inj).
Qed.

End PlatformFacts.

(** ** The further properties at concrete inputs *)

Lemma records_copy_upstream_fields_witness :
  exists rs w' r,
    @_async_update_data (Example.online Example.three) Example.world = (inr rs, w')
    /\ rs !! 1%nat = Some (Some r)
    /\ start r = from_name (opendata w')
    /\ destination r = to_name (opendata w')
    /\ exists c,
        Some c ∈ connections (opendata w')
        /\ train_number r = raw_number c
        /\ platform r = raw_platform c
        /\ transfers r = raw_transfers c
        /\ duration r = raw_duration c
        /\ delay r = raw_delay c
        /\ departure r = of_datetime (Example.parse (raw_departure c)).
Proof.
  eexists _, _, _. split; [vm_compute; reflexivity|]. split; [reflexivity|].
  refine (@records_copy_upstream_fields (Example.online Example.three)
            Example.world _ _ _ eq_refl _).
  apply list_elem_of_further, list_elem_of_here.
Defined.

Lemma departure_null_iff_remaining_time_None_witness :
  exists rs w' r,
    @_async_update_data (Example.online Example.late_and_five) Example.world = (inr rs, w')
    /\ rs !! 0%nat = Some (Some r)
    /\ (departure r = PyNone <-> remaining_time r = PyStr "None").
Proof.
  eexists _, _, _. split; [vm_compute; reflexivity|]. split; [reflexivity|].
  refine (@departure_null_iff_remaining_time_None (Example.online Example.late_and_five)
            Example.world _ _ _ eq_refl _).
  apply list_elem_of_here.
Defined.

Lemma poll_reads_clock_once_per_parsed_departure_witness :
  clock_reads (@_async_update_data (Example.online Example.late_and_five) Example.world).2
    = (0 + length (filter (fun c => is_Some (Example.parse (raw_departure c)))
                     (omap id (take 3 Example.late_and_five))))%nat
  /\ (clock_reads (@_async_update_data (Example.online Example.late_and_five)
                     Example.world).2 <= 0 + 3)%nat.
Proof.
  exact (@poll_reads_clock_once_per_parsed_departure
           (Example.online Example.late_and_five) Example.world tt _ eq_refl).
Defined.

Lemma enabled_after_poll_witness :
  exists rs w',
    @_async_update_data (Example.online Example.null_then_two) Example.world = (inr rs, w')
    /\ enabled (departure_description 2) (set_data rs w') =
         (if bool_decide (Z.to_nat (index_or_0 (departure_description 2)) < length rs)%nat
          then inr true else inl IndexError, set_data rs w').
Proof.
  eexists _, _. split; [vm_compute; reflexivity|].
  refine (@enabled_after_poll (Example.online Example.null_then_two)
            Example.world _ _ (set_data _ _) (departure_description 2) eq_refl eq_refl _).
  do 2 apply list_elem_of_further. apply list_elem_of_here.
Defined.

Lemma departure_view_after_poll_witness :
  exists rs w',
    @_async_update_data (Example.online Example.null_then_two) Example.world = (inr rs, w')
    /\ native_value (departure_description 0) (set_data rs w') =
         (match omap id (take 3 (connections (opendata w'))) !! 0%nat with
          | Some c => inr (of_datetime (Example.parse (raw_departure c)))
          | None => inl IndexError
          end, set_data rs w').
Proof.
  eexists _, _. split; [vm_compute; reflexivity|].
  exact (@departure_view_after_poll (Example.online Example.null_then_two)
           Example.world _ _ (set_data _ _) 0%nat eq_refl eq_refl).
Defined.

Lemma unindexed_views_after_poll_witness :
  exists rs w',
    @_async_update_data (Example.online Example.null_then_two) Example.world = (inr rs, w')
    /\ native_value duration_description (set_data rs w') = (inr (PyInt 3360), set_data rs w')
    /\ native_value transfers_description (set_data rs w') = (inr (PyInt 0), set_data rs w')
    /\ native_value platform_description (set_data rs w') = (inr (PyStr "7"), set_data rs w')
    /\ native_value delay_description (set_data rs w') = (inr (PyInt 1), set_data rs w').
Proof.
  eexists _, _. split; [vm_compute; reflexivity|].
  exact (@unindexed_views_after_poll (Example.online Example.null_then_two)
           Example.world _ _ (set_data _ _) eq_refl eq_refl).
Defined.

Lemma async_setup_entry_raises_iff_unregistered_witness :
  @async_setup_entry (Example.online Example.three) ExampleSetup.domain nat ∅ ExampleSetup.config_entry
    = inl (KeyError ExampleSetup.domain).
Proof.
  exact (proj1 (proj2 (@async_setup_entry_raises_iff_unregistered
                         (Example.online Example.three) ExampleSetup.domain nat
                         ∅ ExampleSetup.config_entry)) eq_refl).
Defined.

Lemma async_setup_entry_adds_one_sensor_per_description_witness :
  exists sensors,
    @async_setup_entry (Example.online Example.three) ExampleSetup.domain nat
      ExampleSetup.hass_data ExampleSetup.config_entry = inr sensors
    /\ entity_description <$> sensors = @SENSORS (Example.online Example.three)
    /\ length sensors = (3 + 4)%nat
    /\ Forall (fun s =>
         coordinator s = 7%nat
         /\ identifiers (_attr_device_info s) = [(ExampleSetup.domain, Some "Bern Basel SBB")]
         /\ manufacturer (_attr_device_info s) = "Opendata.ch") sensors.
Proof.
  refine (@async_setup_entry_adds_one_sensor_per_description
            (Example.online Example.three) ExampleSetup.domain nat
            ExampleSetup.hass_data ExampleSetup.config_entry {[ "entry-1" := 7%nat ]} 7%nat _ _).
  - apply lookup_singleton_eq.
  - apply lookup_singleton_eq.
Defined.

Lemma async_setup_entry_unique_ids_distinct_witness :
  exists sensors,
    @async_setup_entry (Example.online Example.three) ExampleSetup.domain nat
      ExampleSetup.hass_data ExampleSetup.config_entry = inr sensors
    /\ NoDup (_attr_unique_id <$> sensors)
    /\ Forall (fun s =>
         _attr_unique_id s = "Bern Basel SBB" +:+ "_" +:+ key (entity_description s))
         sensors.
Proof.
  eexists. split; [vm_compute; reflexivity|].
  refine (@async_setup_entry_unique_ids_distinct
            (Example.online Example.three) ExampleSetup.domain nat
            ExampleSetup.hass_data ExampleSetup.config_entry _ _).
  vm_compute. reflexivity.
Defined.

Lemma async_setup_platform_raises_iff_reason_missing_witness :
  async_setup_platform ExampleSetup.domain ExampleSetup.placeholders "homeassistant"
    {| flow_type := FORM; flow_reason := None |} ∅
  = (inl (KeyError "reason"), ∅).
Proof.
  apply (proj1 (async_setup_platform_raises_iff_reason_missing
                  ExampleSetup.domain ExampleSetup.placeholders "homeassistant"
                  {| flow_type := FORM; flow_reason := None |} ∅)).
  split; [discriminate | reflexivity].
Defined.

Lemma async_setup_platform_creates_one_warning_witness :
  exists domain issue_id issue,
    (async_setup_platform ExampleSetup.domain ExampleSetup.placeholders "homeassistant"
       (ExampleSetup.aborted "cannot_connect") ∅).2
      = async_create_issue domain issue_id issue ∅
    /\ Issue.is_fixable issue = false
    /\ Issue.severity issue = WARNING
    /\ Issue.breaks_in_ha_version issue = "2024.7.0"
    /\ Issue.issue_domain issue = ExampleSetup.domain
    /\ domain = ExampleSetup.domain
    /\ Issue.translation_key issue = issue_id
    /\ Issue.translation_placeholders issue = ExampleSetup.placeholders
    /\ exists r, Some "cannot_connect" = Some r
         /\ issue_id = "deprecated_yaml_import_issue_$" +:+ r.
Proof.
  exact (async_setup_platform_creates_one_warning
           ExampleSetup.domain ExampleSetup.placeholders "homeassistant"
           (ExampleSetup.aborted "cannot_connect") ∅ eq_refl).
Defined.

Lemma import_failure_issue_ids_distinct_witness :
  exists id1 id2 issue1 issue2,
    async_setup_platform ExampleSetup.domain ExampleSetup.placeholders "homeassistant"
      (ExampleSetup.aborted "cannot_connect") ∅
      = (inr tt, async_create_issue ExampleSetup.domain id1 issue1 ∅)
    /\ async_setup_platform ExampleSetup.domain ExampleSetup.placeholders "homeassistant"
      (ExampleSetup.aborted "bad_config") ∅
      = (inr tt, async_create_issue ExampleSetup.domain id2 issue2 ∅)
    /\ id1 <> id2.
Proof.
  refine (import_failure_issue_ids_distinct
            ExampleSetup.domain ExampleSetup.placeholders "homeassistant"
            "cannot_connect" "bad_config"
            (ExampleSetup.aborted "cannot_connect") (ExampleSetup.aborted "bad_config") ∅ ∅
            _ eq_refl _ eq_refl _ _ _); discriminate.
Defined.
